(** * CMS contest schedule and token policy: [cms/db/contest.py]

    A shallow embedding of the [Contest] table of the Contest Management
    System: its columns, the CHECK constraints the database enforces when a
    row is stored, and the method [Contest.phase].  The token queries of the
    specification ([availableTokens], [canSpendNow]) are not part of
    [cms/db/contest.py]; they are modelled from the specification in
    [Module TokenLedger] and are marked as such. *)

From Stdlib Require Import ZArith Bool List Lia.
From ExtLib Require Import Structures.Monad Structures.MonadState.
From ExtLib Require Import Data.Monads.StateMonad Data.Monads.OptionMonad.
Import ListNotations.
Import MonadNotation.
Local Open Scope Z_scope.
Local Open Scope monad_scope.

(** ** Time

    A Python naive [datetime] is a point on a discrete, totally ordered axis
    with microsecond resolution; a [timedelta] is a signed number of
    microseconds.  Both are integers here: a [datetime] is the number of
    microseconds since 1970-01-01 00:00:00 on the naive calendar. *)

Definition datetime := Z.
Definition timedelta := Z.

Definition seconds (n : Z) : timedelta := n * 1000000.
Definition minutes (n : Z) : timedelta := seconds (n * 60).

(** [datetime(2025, 1, 1)] and [datetime(2030, 1, 1)], the column defaults. *)
Definition datetime_2025_1_1 : datetime := 1735689600000000.
Definition datetime_2030_1_1 : datetime := 1893456000000000.

(** ** The [token_mode] enumeration ([cms.TOKEN_MODE_*]) *)

Inductive token_mode_t : Type :=
| TOKEN_MODE_DISABLED
| TOKEN_MODE_FINITE
| TOKEN_MODE_INFINITE.

(** ** The [Contest] row

    The columns that carry a CHECK constraint or that [phase] reads, with
    the source's names.  A [nullable=True] column is an [option]; a
    [nullable=False] column is a plain value.  The remaining columns (name,
    description, languages, the boolean switches, the time zone, the
    relationships) carry no CHECK constraint and are read by no method of
    the class. *)

Record Contest : Type := {
  token_mode : token_mode_t;
  token_max_number : option Z;
  token_min_interval : timedelta;
  token_gen_initial : Z;
  token_gen_number : Z;
  token_gen_interval : timedelta;
  token_gen_max : option Z;
  start : datetime;
  stop : datetime;
  analysis_enabled : bool;
  analysis_start : datetime;
  analysis_stop : datetime;
  per_user_time : option timedelta;
  max_submission_number : option Z;
  max_user_test_number : option Z;
  min_submission_interval : option timedelta;
  min_user_test_interval : option timedelta;
  score_precision : Z
}.

(** The row built from the [default=] of every column; a nullable column
    without a default is NULL. *)
Definition Contest_default : Contest := {|
  token_mode := TOKEN_MODE_INFINITE;
  token_max_number := None;
  token_min_interval := 0;
  token_gen_initial := 2;
  token_gen_number := 2;
  token_gen_interval := minutes 30;
  token_gen_max := None;
  start := datetime_2025_1_1;
  stop := datetime_2025_1_1;
  analysis_enabled := false;
  analysis_start := datetime_2030_1_1;
  analysis_stop := datetime_2030_1_1;
  per_user_time := None;
  max_submission_number := None;
  max_user_test_number := None;
  min_submission_interval := None;
  min_user_test_interval := None;
  score_precision := 0
|}.

(** ** CHECK constraints

    SQL comparisons are three-valued: a comparison with NULL is unknown, and
    a CHECK constraint rejects a row only when its expression is false. *)

Module SQL.

(** A value of an SQL expression: [None] is NULL / unknown. *)
Definition value (A : Type) := option A.

Definition lit {A : Type} (a : A) : value A := Some a.

Definition cmp (op : Z -> Z -> bool) (a b : value Z) : value bool :=
  match a, b with
  | Some x, Some y => Some (op x y)
  | _, _ => None
  end.

Definition le := cmp Z.leb.
Definition lt := cmp Z.ltb.
Definition ge (a b : value Z) := cmp Z.leb b a.
Definition gt (a b : value Z) := cmp Z.ltb b a.

(** The row passes the constraint unless the expression is false. *)
Definition passes (e : value bool) : bool :=
  match e with
  | Some false => false
  | _ => true
  end.

End SQL.

(** [Contest.__table_args__]: the four table-level constraints, in order. *)
Definition table_args : list (Contest -> SQL.value bool) :=
  [ (fun c => SQL.le (SQL.lit (start c)) (SQL.lit (stop c)));
    (fun c => SQL.le (SQL.lit (stop c)) (SQL.lit (analysis_start c)));
    (fun c => SQL.le (SQL.lit (analysis_start c)) (SQL.lit (analysis_stop c)));
    (fun c => SQL.le (SQL.lit (token_gen_initial c)) (token_gen_max c)) ].

(** The constraints attached to single columns, in the order of the class
    body. *)
Definition column_checks : list (Contest -> SQL.value bool) :=
  [ (fun c => SQL.gt (token_max_number c) (SQL.lit 0));
    (fun c => SQL.ge (SQL.lit (token_min_interval c)) (SQL.lit (seconds 0)));
    (fun c => SQL.ge (SQL.lit (token_gen_initial c)) (SQL.lit 0));
    (fun c => SQL.ge (SQL.lit (token_gen_number c)) (SQL.lit 0));
    (fun c => SQL.gt (SQL.lit (token_gen_interval c)) (SQL.lit (seconds 0)));
    (fun c => SQL.gt (token_gen_max c) (SQL.lit 0));
    (fun c => SQL.ge (per_user_time c) (SQL.lit (seconds 0)));
    (fun c => SQL.gt (max_submission_number c) (SQL.lit 0));
    (fun c => SQL.gt (max_user_test_number c) (SQL.lit 0));
    (fun c => SQL.gt (min_submission_interval c) (SQL.lit (seconds 60)));
    (fun c => SQL.gt (min_user_test_interval c) (SQL.lit (seconds 0)));
    (fun c => SQL.ge (SQL.lit (score_precision c)) (SQL.lit 0)) ].

(** The database stores the row iff every constraint passes. *)
Definition accepted (c : Contest) : bool :=
  forallb (fun chk => SQL.passes (chk c)) (table_args ++ column_checks).

(** ** [Contest.phase] *)

Definition phase (self : Contest) (timestamp : datetime) : Z :=
  if timestamp <? start self then -1
  else if timestamp <=? stop self then 0
  else if analysis_enabled self then
    if timestamp <? analysis_start self then 1
    else if timestamp <=? analysis_stop self then 2
    else 3
  else 3.

(** The same method with the object and the rest of the program state made
    explicit: the body only reads attributes of [self]. *)
Section Stateful.

Variable World : Type.

(** The store: the contest object and everything else. *)
Definition store : Type := (Contest * World)%type.

(** [self.<column>] *)
Definition getattr {A : Type} (column : Contest -> A) : state store A :=
  s <- get ;; ret (column (fst s)).

Definition phase_method (timestamp : datetime) : state store Z :=
  self_start <- getattr start ;;
  if timestamp <? self_start then ret (-1)
  else
    self_stop <- getattr stop ;;
    if timestamp <=? self_stop then ret 0
    else
      enabled <- getattr analysis_enabled ;;
      if (enabled : bool) then
        self_analysis_start <- getattr analysis_start ;;
        if timestamp <? self_analysis_start then ret 1
        else
          self_analysis_stop <- getattr analysis_stop ;;
          if timestamp <=? self_analysis_stop then ret 2
          else ret 3
      else ret 3.

End Stateful.

Arguments getattr {World A} column.
Arguments phase_method {World} timestamp.

(** ** The specification's PhaseClock *)

Module PhaseClock.

(** The five phases, in the specification's order. *)
Inductive Phase : Type :=
| BeforeContest
| ContestActive
| AfterContestBeforeAnalysis
| AnalysisActive
| AfterAnalysisOrDisabled.

(** The integer [Contest.phase] returns for each phase (its docstring). *)
Definition phase_code (p : Phase) : Z :=
  match p with
  | BeforeContest => -1
  | ContestActive => 0
  | AfterContestBeforeAnalysis => 1
  | AnalysisActive => 2
  | AfterAnalysisOrDisabled => 3
  end.

(** Position in BeforeContest < ContestActive < AfterContestBeforeAnalysis
    < AnalysisActive < AfterAnalysisOrDisabled. *)
Definition phase_index (p : Phase) : nat :=
  match p with
  | BeforeContest => 0
  | ContestActive => 1
  | AfterContestBeforeAnalysis => 2
  | AnalysisActive => 3
  | AfterAnalysisOrDisabled => 4
  end.

Definition all_phases : list Phase :=
  [ BeforeContest; ContestActive; AfterContestBeforeAnalysis;
    AnalysisActive; AfterAnalysisOrDisabled ].

(** start <= stop <= analysisStart <= analysisStop, on the schedule columns
    of the row. *)
Definition ordering_invariant (s : Contest) : Prop :=
  start s <= stop s /\ stop s <= analysis_start s
  /\ analysis_start s <= analysis_stop s.

(** The six-step contract of section 4.1, written after the
    specification's words (not after the code). *)
Definition phase_contract (s : Contest) (timestamp : datetime) : Phase :=
  if timestamp <? start s then BeforeContest
  else if timestamp <=? stop s then ContestActive
  else if negb (analysis_enabled s) then AfterAnalysisOrDisabled
  else if timestamp <? analysis_start s then AfterContestBeforeAnalysis
  else if timestamp <=? analysis_stop s then AnalysisActive
  else AfterAnalysisOrDisabled.

(** The stretch of the timeline that belongs to each phase: before start;
    from start to stop inclusive; strictly between stop and analysisStart;
    from analysisStart to analysisStop inclusive (the instant stop itself
    stays with the contest); everything after analysisStop, or after stop
    when analysis is disabled. *)
Definition in_range (s : Contest) (p : Phase) (t : datetime) : bool :=
  match p with
  | BeforeContest => t <? start s
  | ContestActive => (start s <=? t) && (t <=? stop s)
  | AfterContestBeforeAnalysis =>
      analysis_enabled s && (stop s <? t) && (t <? analysis_start s)
  | AnalysisActive =>
      analysis_enabled s && (stop s <? t)
      && (analysis_start s <=? t) && (t <=? analysis_stop s)
  | AfterAnalysisOrDisabled =>
      if analysis_enabled s then analysis_stop s <? t else stop s <? t
  end.

End PhaseClock.

(** ** The specification's TokenLedger

    [cms/db/contest.py] only declares the token columns; the functions that
    compute a participant's balance live elsewhere in CMS.  Everything in
    this module follows section 4.2 of the specification. *)

Module TokenLedger.

(** Modelled from the spec: the token mode of section 3 (the code has the
    enumeration [token_mode_t] above, and no function that reads it). *)
Inductive Mode : Type := Disabled | Finite | Infinite.

(** Modelled from the spec: the TokenPolicy of section 3; the code has its
    fields only as columns of [Contest]. *)
Record TokenPolicy : Type := {
  mode : Mode;
  genInitial : Z;
  genNumber : Z;
  genInterval : timedelta;
  genMax : option Z;
  maxTotalNumber : option Z;
  minInterval : timedelta
}.

(** Modelled from the spec: the TokenUsageHistory of section 3, which is
    not in [cms/db/contest.py]: the past spend timestamps of one
    participant, oldest first. *)
Definition TokenUsageHistory : Type := list datetime.

(** Modelled from the spec: the result of [availableTokens], which is not
    in [cms/db/contest.py]: Integer | Infinite. *)
Inductive TokenCount : Type :=
| Tokens (n : Z)
| InfiniteTokens.

(** Modelled from the spec: the verdict of [canSpendNow], which is not in
    [cms/db/contest.py]. *)
Inductive Reason : Type :=
| ReasonDisabled
| NoTokensAvailable
| TooSoonAfterLastSpend
| ReasonNone.

Record Verdict : Type := { allowed : bool; reason : Reason }.

(** The token columns of a row, read as a policy. *)
Definition policy_of (c : Contest) : TokenPolicy := {|
  mode := match token_mode c with
          | TOKEN_MODE_DISABLED => Disabled
          | TOKEN_MODE_FINITE => Finite
          | TOKEN_MODE_INFINITE => Infinite
          end;
  genInitial := token_gen_initial c;
  genNumber := token_gen_number c;
  genInterval := token_gen_interval c;
  genMax := token_gen_max c;
  maxTotalNumber := token_max_number c;
  minInterval := token_min_interval c
|}.

(** Modelled from the spec: the elapsed-interval count of
    [availableTokens], which is not in [cms/db/contest.py].
    k = floor((now - contestStart) / genInterval) clamped to >= 0; the
    division is undefined ([None]) for a non-positive interval. *)
Definition elapsedIntervals (interval : timedelta)
    (contestStart now : datetime) : option Z :=
  if 0 <? interval
  then Some (Z.max 0 ((now - contestStart) / interval))
  else None.

(** Modelled from the spec: the accumulated grants of [availableTokens],
    which is not in [cms/db/contest.py].
    G = genInitial + k * genNumber, capped at genMax if set. *)
Definition grants (policy : TokenPolicy) (k : Z) : Z :=
  let G := genInitial policy + k * genNumber policy in
  match genMax policy with
  | Some cap => Z.min G cap
  | None => G
  end.

(** Modelled from the spec: the spend count of [availableTokens], which is
    not in [cms/db/contest.py]: S = count(history). *)
Definition spent (history : TokenUsageHistory) : Z :=
  Z.of_nat (length history).

(** Modelled from the spec: [availableTokens], which is not in
    [cms/db/contest.py].  Disabled gives 0, Infinite gives Infinite;
    Finite gives max(0, min(G, lifetime budget) - S), additionally capped
    at maxTotalNumber - S when that cap is set (0 once
    S >= maxTotalNumber). *)
Definition availableTokens (policy : TokenPolicy)
    (history : TokenUsageHistory) (contestStart now : datetime)
    : option TokenCount :=
  match mode policy with
  | Disabled => ret (Tokens 0)
  | Infinite => ret InfiniteTokens
  | Finite =>
      k <- elapsedIntervals (genInterval policy) contestStart now ;;
      let G := grants policy k in
      let S := spent history in
      match maxTotalNumber policy with
      | None => ret (Tokens (Z.max 0 (G - S)))
      | Some total =>
          if total <=? S then ret (Tokens 0)
          else ret (Tokens (Z.min (Z.max 0 (Z.min G total - S))
                                  (total - S)))
      end
  end.

(** Modelled from the spec: lastSpendTimestamp of [canSpendNow], which is
    not in [cms/db/contest.py]: the most recent spend, if any. *)
Definition lastSpendTimestamp (history : TokenUsageHistory)
    : option datetime :=
  match rev history with
  | [] => None
  | t :: _ => Some t
  end.

(** Modelled from the spec: [canSpendNow], which is not in
    [cms/db/contest.py]; the four rules of section 4.2 in order. *)
Definition canSpendNow (policy : TokenPolicy)
    (history : TokenUsageHistory) (contestStart now : datetime)
    : option Verdict :=
  match mode policy with
  | Disabled => ret {| allowed := false; reason := ReasonDisabled |}
  | _ =>
      available <- availableTokens policy history contestStart now ;;
      match available with
      | Tokens 0 =>
          ret {| allowed := false; reason := NoTokensAvailable |}
      | _ =>
          match lastSpendTimestamp history with
          | Some lastSpend =>
              if now - lastSpend <? minInterval policy
              then ret {| allowed := false;
                          reason := TooSoonAfterLastSpend |}
              else ret {| allowed := true; reason := ReasonNone |}
          | None => ret {| allowed := true; reason := ReasonNone |}
          end
      end
  end.

(** Modelled from the spec: the caller's side of a spend, which is not in
    [cms/db/contest.py]: the spend is appended to the history only after
    [canSpendNow] allowed it. *)
Definition recordSpend (policy : TokenPolicy)
    (history : TokenUsageHistory) (contestStart now : datetime)
    : option TokenUsageHistory :=
  verdict <- canSpendNow policy history contestStart now ;;
  if allowed verdict then Some (history ++ [now]) else None.

(** The worked example of section 8: genInitial = 2, genNumber = 2,
    genInterval = 30min, no caps.  These are also the defaults of the
    token_gen columns. *)
Definition example_policy : TokenPolicy := {|
  mode := Finite;
  genInitial := 2;
  genNumber := 2;
  genInterval := minutes 30;
  genMax := None;
  maxTotalNumber := None;
  minInterval := 0
|}.

End TokenLedger.


(** * Properties *)

Import PhaseClock.

(** A contest of five hours followed, a day later, by two hours of
    analysis; every other column keeps its default. *)
Definition hours (n : Z) : timedelta := minutes (n * 60).

Definition Contest_with_analysis : Contest := {|
  token_mode := TOKEN_MODE_FINITE;
  token_max_number := None;
  token_min_interval := 0;
  token_gen_initial := 2;
  token_gen_number := 2;
  token_gen_interval := minutes 30;
  token_gen_max := None;
  start := datetime_2025_1_1;
  stop := datetime_2025_1_1 + hours 5;
  analysis_enabled := true;
  analysis_start := datetime_2025_1_1 + hours 24;
  analysis_stop := datetime_2025_1_1 + hours 26;
  per_user_time := None;
  max_submission_number := None;
  max_user_test_number := None;
  min_submission_interval := None;
  min_user_test_interval := None;
  score_precision := 0
|}.

(** A row whose schedule is out of order: it stops before it starts and its
    analysis window ends before it begins. *)
Definition Contest_reversed : Contest := {|
  token_mode := TOKEN_MODE_DISABLED;
  token_max_number := None;
  token_min_interval := 0;
  token_gen_initial := 2;
  token_gen_number := 2;
  token_gen_interval := minutes 30;
  token_gen_max := None;
  start := datetime_2030_1_1;
  stop := datetime_2025_1_1;
  analysis_enabled := true;
  analysis_start := datetime_2030_1_1 + hours 2;
  analysis_stop := datetime_2030_1_1 + hours 1;
  per_user_time := None;
  max_submission_number := None;
  max_user_test_number := None;
  min_submission_interval := None;
  min_user_test_interval := None;
  score_precision := 0
|}.

(** A finite policy with both caps set, and the same row with the
    accumulation cap set to zero. *)
Definition Contest_capped (gen_max : Z) : Contest := {|
  token_mode := TOKEN_MODE_FINITE;
  token_max_number := Some 5;
  token_min_interval := minutes 10;
  token_gen_initial := 2;
  token_gen_number := 2;
  token_gen_interval := minutes 30;
  token_gen_max := Some gen_max;
  start := datetime_2025_1_1;
  stop := datetime_2025_1_1 + hours 5;
  analysis_enabled := false;
  analysis_start := datetime_2030_1_1;
  analysis_stop := datetime_2030_1_1;
  per_user_time := None;
  max_submission_number := None;
  max_user_test_number := None;
  min_submission_interval := None;
  min_user_test_interval := None;
  score_precision := 0
|}.

(** The row stored for [Contest(start=s, stop=e)]: every other column with
    a [default=] takes it, every other nullable column is NULL. *)
Definition Contest_scheduled (s e : datetime) : Contest := {|
  token_mode := TOKEN_MODE_INFINITE;
  token_max_number := None;
  token_min_interval := 0;
  token_gen_initial := 2;
  token_gen_number := 2;
  token_gen_interval := minutes 30;
  token_gen_max := None;
  start := s;
  stop := e;
  analysis_enabled := false;
  analysis_start := datetime_2030_1_1;
  analysis_stop := datetime_2030_1_1;
  per_user_time := None;
  max_submission_number := None;
  max_user_test_number := None;
  min_submission_interval := None;
  min_user_test_interval := None;
  score_precision := 0
|}.

(** The row [c] with its four schedule instants moved by [delta]; the
    intervals and the limits are durations and counts and stay. *)
Definition shift_schedule (delta : timedelta) (c : Contest) : Contest := {|
  token_mode := token_mode c;
  token_max_number := token_max_number c;
  token_min_interval := token_min_interval c;
  token_gen_initial := token_gen_initial c;
  token_gen_number := token_gen_number c;
  token_gen_interval := token_gen_interval c;
  token_gen_max := token_gen_max c;
  start := start c + delta;
  stop := stop c + delta;
  analysis_enabled := analysis_enabled c;
  analysis_start := analysis_start c + delta;
  analysis_stop := analysis_stop c + delta;
  per_user_time := per_user_time c;
  max_submission_number := max_submission_number c;
  max_user_test_number := max_user_test_number c;
  min_submission_interval := min_submission_interval c;
  min_user_test_interval := min_user_test_interval c;
  score_precision := score_precision c
|}.

(** A condition on a nullable column: it binds only when the column is
    set. *)
Definition when_set {A : Type} (column : option A) (P : A -> Prop) : Prop :=
  match column with
  | Some v => P v
  | None => True
  end.

(** ** Case analysis on the comparisons of [phase] *)

Ltac split_tests :=
  repeat match goal with
  | |- context [Z.ltb ?a ?b] => destruct (Z.ltb_spec a b)
  | |- context [Z.leb ?a ?b] => destruct (Z.leb_spec a b)
  | H : context [Z.ltb ?a ?b] |- _ => destruct (Z.ltb_spec a b)
  | H : context [Z.leb ?a ?b] |- _ => destruct (Z.leb_spec a b)
  end.

Ltac phase_cases s :=
  unfold phase, phase_contract, in_range, ordering_invariant in *;
  destruct (analysis_enabled s) eqn:?; split_tests;
  cbn [phase_code phase_index negb andb] in *.

(** Evaluate a statement about concrete rows down to integer comparisons. *)
Ltac concrete := cbv -[Z.le Z.lt Z.ge Z.gt]; try lia.

Lemma phase_code_inj (p q : Phase) : phase_code p = phase_code q -> p = q.
Proof. destruct p, q; cbn; intros H; try reflexivity; discriminate H. Qed.

Lemma phase_index_code (p q : Phase) :
  (phase_index p <= phase_index q)%nat <-> phase_code p <= phase_code q.
Proof. destruct p, q; cbn; lia. Qed.

(** The code and the six-step contract agree on every row, ordered or not. *)
Lemma phase_refines_contract (s : Contest) (t : datetime) :
  phase s t = phase_code (phase_contract s t).
Proof. phase_cases s; reflexivity. Qed.

(** Under the ordering invariant a phase is exactly its stretch of the
    timeline. *)
Lemma phase_contract_in_range (s : Contest) (t : datetime) (p : Phase) :
  ordering_invariant s ->
  in_range s p t = true <-> phase_contract s t = p.
Proof.
  intros Hord. destruct p; phase_cases s;
    split; intros Hp; try reflexivity; try discriminate Hp; lia.
Qed.

Lemma phase_contract_monotone (s : Contest) (t1 t2 : datetime) :
  ordering_invariant s -> t1 <= t2 ->
  (phase_index (phase_contract s t1) <= phase_index (phase_contract s t2))%nat.
Proof. intros Hord Hle. phase_cases s; lia. Qed.

(** An accepted row satisfies the ordering invariant. *)
Lemma accepted_ordering_invariant (c : Contest) :
  accepted c = true -> ordering_invariant c.
Proof.
  unfold accepted, ordering_invariant. cbn [app table_args column_checks forallb].
  rewrite !andb_true_iff. cbn. intros Hacc.
  decompose [and] Hacc. split_tests; try discriminate; lia.
Qed.

(** ** PhaseClock *)

(** C1. For every schedule satisfying start <= stop <= analysisStart <=
    analysisStop and every timestamp, [phase] is the six-step contract:
    before start it is BeforeContest; from start to stop, both included, it
    is ContestActive (in particular at exactly start and at exactly stop);
    after stop it is AfterAnalysisOrDisabled when analysis is disabled;
    otherwise AfterContestBeforeAnalysis before analysisStart,
    AnalysisActive up to and including analysisStop, and
    AfterAnalysisOrDisabled later. *)
Theorem phase_follows_decision_order (s : Contest) (timestamp : datetime) :
  ordering_invariant s ->
  phase s timestamp = phase_code (phase_contract s timestamp)
  /\ (timestamp < start s -> phase s timestamp = phase_code BeforeContest)
  /\ (start s <= timestamp <= stop s ->
      phase s timestamp = phase_code ContestActive)
  /\ phase s (start s) = phase_code ContestActive
  /\ phase s (stop s) = phase_code ContestActive
  /\ (stop s < timestamp -> analysis_enabled s = false ->
      phase s timestamp = phase_code AfterAnalysisOrDisabled)
  /\ (stop s < timestamp -> analysis_enabled s = true ->
      (timestamp < analysis_start s ->
       phase s timestamp = phase_code AfterContestBeforeAnalysis)
      /\ (analysis_start s <= timestamp <= analysis_stop s ->
          phase s timestamp = phase_code AnalysisActive)
      /\ (analysis_stop s < timestamp ->
          phase s timestamp = phase_code AfterAnalysisOrDisabled)).
Proof.
  intros Hord. split; [apply phase_refines_contract|].
  unfold phase, ordering_invariant in *. cbn [phase_code].
  repeat split; intros;
    repeat match goal with
    | H : analysis_enabled s = _ |- _ => rewrite H
    end;
    split_tests; try reflexivity; try lia;
    destruct (analysis_enabled s); split_tests; try reflexivity; lia.
Qed.

Lemma phase_follows_decision_order_witness :
  ordering_invariant Contest_with_analysis
  /\ phase Contest_with_analysis (stop Contest_with_analysis)
     = phase_code ContestActive
  /\ phase Contest_with_analysis (stop Contest_with_analysis + 1)
     = phase_code AfterContestBeforeAnalysis.
Proof.
  assert (Hord : ordering_invariant Contest_with_analysis)
    by (repeat split; concrete).
  pose proof (phase_follows_decision_order Contest_with_analysis
                (stop Contest_with_analysis + 1) Hord) as H.
  destruct H as (_ & _ & _ & _ & Hstop & _ & Hafter).
  split; [exact Hord|]. split; [exact Hstop|].
  apply Hafter; [lia | reflexivity | concrete].
Defined.

(** C2. For every schedule satisfying the ordering invariant and every
    timestamp, [phase] returns the code of exactly one of the five phases,
    the phase returned is the one whose stretch of the timeline holds the
    timestamp, and exactly one stretch holds it: no gap, no overlap. *)
Theorem phase_ranges_partition (s : Contest) (t : datetime) :
  ordering_invariant s ->
  (exists! p, phase s t = phase_code p)
  /\ (forall p, in_range s p t = true <-> phase s t = phase_code p)
  /\ (exists! p, in_range s p t = true).
Proof.
  intros Hord.
  assert (Hiff : forall p, in_range s p t = true <-> phase s t = phase_code p).
  { intros p. rewrite phase_refines_contract.
    rewrite (phase_contract_in_range s t p Hord).
    split; [intros ->; reflexivity | apply phase_code_inj]. }
  repeat split.
  - exists (phase_contract s t). split.
    + apply phase_refines_contract.
    + intros q Hq. apply phase_code_inj.
      rewrite <- Hq. symmetry. apply phase_refines_contract.
  - apply Hiff.
  - apply Hiff.
  - exists (phase_contract s t). split.
    + apply Hiff, phase_refines_contract.
    + intros q Hq. apply Hiff in Hq. apply phase_code_inj.
      rewrite <- Hq. symmetry. apply phase_refines_contract.
Qed.

Lemma phase_ranges_partition_witness :
  ordering_invariant Contest_with_analysis
  /\ exists! p,
       in_range Contest_with_analysis p (analysis_start Contest_with_analysis)
       = true.
Proof.
  assert (Hord : ordering_invariant Contest_with_analysis)
    by (repeat split; concrete).
  split; [exact Hord|].
  exact (proj2 (proj2 (phase_ranges_partition Contest_with_analysis
                         (analysis_start Contest_with_analysis) Hord))).
Defined.

(** C3. For every schedule satisfying the ordering invariant and all
    timestamps t1 <= t2, the phase at t1 is not later than the phase at t2
    in the order BeforeContest < ContestActive < AfterContestBeforeAnalysis
    < AnalysisActive < AfterAnalysisOrDisabled. *)
Theorem phase_monotone (s : Contest) (t1 t2 : datetime) :
  ordering_invariant s -> t1 <= t2 ->
  exists p1 p2,
    phase s t1 = phase_code p1 /\ phase s t2 = phase_code p2
    /\ (phase_index p1 <= phase_index p2)%nat.
Proof.
  intros Hord Hle.
  exists (phase_contract s t1), (phase_contract s t2).
  repeat split; try apply phase_refines_contract.
  now apply phase_contract_monotone.
Qed.

Lemma phase_monotone_witness :
  exists p1 p2,
    phase Contest_with_analysis (start Contest_with_analysis)
    = phase_code p1
    /\ phase Contest_with_analysis (analysis_stop Contest_with_analysis + 1)
       = phase_code p2
    /\ (phase_index p1 <= phase_index p2)%nat.
Proof.
  apply phase_monotone.
  - repeat split; concrete.
  - concrete.
Defined.

(** C4. For every schedule with analysisEnabled = false and every
    timestamp, [phase] is neither AfterContestBeforeAnalysis nor
    AnalysisActive. *)
Theorem phase_analysis_disabled (s : Contest) (t : datetime) :
  analysis_enabled s = false ->
  phase s t <> phase_code AfterContestBeforeAnalysis
  /\ phase s t <> phase_code AnalysisActive.
Proof.
  intros Hoff. unfold phase. rewrite Hoff. cbn [phase_code].
  split_tests; split; discriminate.
Qed.

Lemma phase_analysis_disabled_witness :
  phase Contest_default (datetime_2030_1_1 - 1)
  <> phase_code AfterContestBeforeAnalysis
  /\ phase Contest_default datetime_2030_1_1 <> phase_code AnalysisActive.
Proof.
  split.
  - apply (phase_analysis_disabled Contest_default (datetime_2030_1_1 - 1)).
    reflexivity.
  - apply (phase_analysis_disabled Contest_default datetime_2030_1_1).
    reflexivity.
Defined.

(** Sequencing in the state monad runs the first computation and hands its
    value and its final store to the second. *)
Lemma runState_bind {S A B : Type} (c : state S A) (f : A -> state S B)
    (s : S) :
  runState (bind c f) s
  = runState (f (fst (runState c s))) (snd (runState c s)).
Proof. cbn. destruct (runState c s). reflexivity. Qed.

(** C9. [phase] is defined on every row and every timestamp, whether or not
    the row satisfies start <= stop <= analysisStart <= analysisStop: the
    result is always one of -1, 0, 1, 2, 3, the codes of the five phases. *)
Theorem phase_total (s : Contest) (t : datetime) :
  In (phase s t) [-1; 0; 1; 2; 3]
  /\ exists p, In p all_phases /\ phase s t = phase_code p.
Proof.
  split.
  - unfold phase. destruct (analysis_enabled s); split_tests; cbn; tauto.
  - exists (phase_contract s t). split.
    + destruct (phase_contract s t); cbn; tauto.
    + apply phase_refines_contract.
Qed.

(** On the out-of-order row the method still answers: an instant between
    its stop and its start is before the contest, and one after its start is
    past the analysis. *)
Example phase_reversed_schedule :
  ~ ordering_invariant Contest_reversed
  /\ phase Contest_reversed (datetime_2025_1_1 + hours 1) = -1
  /\ phase Contest_reversed (datetime_2030_1_1 + hours 3) = 3.
Proof.
  split; [|split; reflexivity].
  intros (Hle & _). revert Hle. concrete.
Qed.

(** C8. [phase] is deterministic and free of side effects: run as a method
    on a store holding the contest object and any other state, it returns
    the value of the function [phase] and leaves the store as it was, and
    two evaluations in a row on the same arguments return the same result
    and again leave the store unchanged. *)
Theorem phase_deterministic_pure (World : Type) (self : Contest) (w : World)
    (timestamp : datetime) :
  runState (phase_method timestamp) (self, w)
  = (phase self timestamp, (self, w))
  /\ runState (first <- phase_method timestamp ;;
               second <- phase_method timestamp ;;
               ret (first, second)) (self, w)
     = ((phase self timestamp, phase self timestamp), (self, w)).
Proof.
  assert (Hrun : runState (phase_method timestamp) (self, w)
                 = (phase self timestamp, (self, w))).
  { unfold phase_method, phase, getattr. cbn.
    repeat match goal with
    | |- context [if ?b then _ else _] => destruct b; cbn; try reflexivity
    end. }
  split; [exact Hrun|].
  rewrite (runState_bind (phase_method timestamp)), Hrun. cbn [fst snd].
  rewrite (runState_bind (phase_method timestamp)), Hrun. reflexivity.
Qed.

(** ** Configuration acceptance *)

(** What an accepted row guarantees about its schedule and token columns:
    a NULL cap is not constrained, a cap that is set is. *)
Lemma accepted_inv (c : Contest) :
  accepted c = true ->
  start c <= stop c
  /\ 0 <= token_min_interval c
  /\ 0 <= token_gen_initial c
  /\ 0 <= token_gen_number c
  /\ 0 < token_gen_interval c
  /\ (forall cap, token_gen_max c = Some cap ->
      token_gen_initial c <= cap /\ 0 < cap)
  /\ (forall cap, token_max_number c = Some cap -> 0 < cap).
Proof.
  unfold accepted. cbn [app table_args column_checks forallb].
  rewrite !andb_true_iff.
  unfold SQL.passes, SQL.le, SQL.lt, SQL.ge, SQL.gt, SQL.cmp, SQL.lit, seconds.
  intros Hacc. decompose [and] Hacc. clear Hacc.
  destruct (token_gen_max c) as [gen_max|], (token_max_number c) as [total|];
    split_tests; try discriminate;
    repeat match goal with |- _ /\ _ => split end; try lia;
    intros cap Hcap; inversion Hcap; subst; try split; lia.
Qed.

(** C10. An accepted row satisfies token_gen_initial <= token_gen_max
    whenever token_gen_max is set, and a token_gen_max or token_max_number
    that is set is strictly positive; a row whose token_gen_max or
    token_max_number is zero is refused. *)
Theorem accepted_token_caps (c : Contest) :
  (accepted c = true ->
   (forall cap, token_gen_max c = Some cap ->
    token_gen_initial c <= cap /\ 0 < cap)
   /\ (forall cap, token_max_number c = Some cap -> 0 < cap))
  /\ (token_gen_max c = Some 0 \/ token_max_number c = Some 0 ->
      accepted c = false).
Proof.
  split.
  - intros Hacc. apply accepted_inv in Hacc. tauto.
  - intros Hzero. destruct (accepted c) eqn:Hacc; [|reflexivity].
    apply accepted_inv in Hacc.
    destruct Hacc as (_ & _ & _ & _ & _ & Hgen & Htotal).
    destruct Hzero as [Hz | Hz];
      [apply Hgen in Hz | apply Htotal in Hz]; lia.
Qed.

Lemma accepted_token_caps_witness :
  accepted (Contest_capped 3) = true
  /\ token_gen_initial (Contest_capped 3) <= 3
  /\ accepted (Contest_capped 0) = false.
Proof.
  split; [reflexivity|]. split.
  - apply (proj1 (proj1 (accepted_token_caps (Contest_capped 3)) eq_refl) 3).
    reflexivity.
  - apply (proj2 (accepted_token_caps (Contest_capped 0))).
    left. reflexivity.
Defined.

(** ** TokenLedger *)

Import TokenLedger.

(** The interval count is the floor of the elapsed time over the interval,
    and zero before the contest starts. *)
Lemma elapsedIntervals_floor (interval : timedelta) (cs now : datetime) :
  0 < interval ->
  exists k,
    elapsedIntervals interval cs now = Some k
    /\ 0 <= k
    /\ (now < cs -> k = 0)
    /\ (cs <= now -> k * interval <= now - cs < (k + 1) * interval).
Proof.
  intros Hpos. unfold elapsedIntervals.
  destruct (Z.ltb_spec 0 interval) as [_ | Hbad]; [|lia].
  eexists. split; [reflexivity|].
  pose proof (Z.div_mod (now - cs) interval ltac:(lia)) as Hdm.
  pose proof (Z.mod_pos_bound (now - cs) interval Hpos) as Hmod.
  split; [lia|]. split.
  - intros Hbefore.
    assert ((now - cs) / interval < 0) by (apply Z.div_lt_upper_bound; lia).
    lia.
  - intros Hstarted.
    assert (0 <= (now - cs) / interval) by (apply Z.div_pos; lia).
    rewrite Z.max_r by lia. nia.
Qed.

(** A finite policy with a positive interval always has a balance, and it
    is never negative. *)
Lemma availableTokens_finite (p : TokenPolicy) (h : TokenUsageHistory)
    (cs now : datetime) :
  mode p = Finite -> 0 < genInterval p ->
  exists n, availableTokens p h cs now = Some (Tokens n) /\ 0 <= n.
Proof.
  intros Hmode Hpos. unfold availableTokens. rewrite Hmode.
  destruct (elapsedIntervals_floor (genInterval p) cs now Hpos)
    as (k & -> & _).
  cbn. destruct (maxTotalNumber p) as [total|].
  - destruct (Z.leb_spec total (spent h)); eexists; split;
      try reflexivity; lia.
  - eexists; split; [reflexivity | lia].
Qed.

(** Without a lifetime cap the balance is the grants minus the spends,
    never below zero. *)
Lemma availableTokens_no_lifetime_cap (p : TokenPolicy)
    (h : TokenUsageHistory) (cs now : datetime) (k : Z) :
  mode p = Finite -> maxTotalNumber p = None ->
  elapsedIntervals (genInterval p) cs now = Some k ->
  availableTokens p h cs now
  = Some (Tokens (Z.max 0 (grants p k - Z.of_nat (length h)))).
Proof.
  intros Hmode Hcap Hk. unfold availableTokens.
  rewrite Hmode, Hk, Hcap. reflexivity.
Qed.

Lemma lastSpendTimestamp_snoc (h : TokenUsageHistory) (t : datetime) :
  lastSpendTimestamp (h ++ [t]) = Some t.
Proof. unfold lastSpendTimestamp. rewrite rev_app_distr. reflexivity. Qed.

(** A spend is recorded only when at least one token is available. *)
Lemma recordSpend_inv (p : TokenPolicy) (h h' : TokenUsageHistory)
    (cs now : datetime) :
  mode p = Finite ->
  recordSpend p h cs now = Some h' ->
  h' = h ++ [now]
  /\ exists n, availableTokens p h cs now = Some (Tokens n) /\ n <> 0.
Proof.
  intros Hmode. unfold recordSpend, canSpendNow. rewrite Hmode.
  destruct (availableTokens p h cs now) as [[n|]|] eqn:Hav; cbn.
  - destruct n as [|n|n]; cbn;
      try (intros Hrec; discriminate Hrec);
      destruct (lastSpendTimestamp h) as [lastSpend|];
      try destruct (_ <? _); cbn; intros Hrec;
      try discriminate Hrec; inversion Hrec; subst;
      (split; [reflexivity | eexists; split; [reflexivity | lia]]).
  - unfold availableTokens in Hav. rewrite Hmode in Hav.
    destruct (elapsedIntervals _ _ _); cbn in Hav;
      [destruct (maxTotalNumber p); [destruct (_ <=? _)|]|]; discriminate Hav.
  - intros Hrec; discriminate Hrec.
Qed.

(** Under a finite policy every recorded spend lowers the balance at that
    instant by exactly one, with or without caps. *)
Lemma recordSpend_decrements (p : TokenPolicy) (h h' : TokenUsageHistory)
    (cs now : datetime) :
  mode p = Finite -> 0 < genInterval p ->
  recordSpend p h cs now = Some h' ->
  exists n,
    availableTokens p h cs now = Some (Tokens n)
    /\ availableTokens p h' cs now = Some (Tokens (n - 1)).
Proof.
  intros Hmode Hpos Hrec.
  destruct (recordSpend_inv p h h' cs now Hmode Hrec) as (-> & n & Hav & Hn).
  exists n. split; [exact Hav|].
  revert Hav. unfold availableTokens. rewrite Hmode.
  destruct (elapsedIntervals_floor (genInterval p) cs now Hpos)
    as (k & -> & _).
  cbn. unfold spent. rewrite length_app, Nat2Z.inj_add. cbn [length].
  change (Z.of_nat 1) with 1.
  destruct (maxTotalNumber p) as [total|].
  - destruct (Z.leb_spec total (Z.of_nat (length h)));
      destruct (Z.leb_spec total (Z.of_nat (length h) + 1));
      intros Hav; inversion Hav; subst; f_equal; f_equal; lia.
  - intros Hav; inversion Hav; subst. f_equal; f_equal; lia.
Qed.

(** The worked example is the default row switched to the finite mode. *)
Lemma example_policy_defaults :
  genInitial example_policy = token_gen_initial Contest_default
  /\ genNumber example_policy = token_gen_number Contest_default
  /\ genInterval example_policy = token_gen_interval Contest_default
  /\ genMax example_policy = token_gen_max Contest_default
  /\ maxTotalNumber example_policy = token_max_number Contest_default
  /\ minInterval example_policy = token_min_interval Contest_default.
Proof. repeat split. Qed.

(** The elapsed intervals of the two instants of the worked example. *)
Lemma elapsedIntervals_at_start (cs : datetime) :
  elapsedIntervals (minutes 30) cs cs = Some 0.
Proof. unfold elapsedIntervals. rewrite Z.sub_diag. reflexivity. Qed.

Lemma elapsedIntervals_after_31_minutes (cs : datetime) :
  elapsedIntervals (minutes 30) cs (cs + minutes 31) = Some 1.
Proof. unfold elapsedIntervals. rewrite Z.add_simpl_l. reflexivity. Qed.

(** C5. For a Finite policy (with a valid, positive genInterval),
    [availableTokens] counts k = floor((now - contestStart) / genInterval)
    clamped to >= 0, grants G = genInitial + k * genNumber capped at genMax
    when genMax is set and uncapped when it is not, and subtracts the number
    of recorded spends (never going below zero).  With genInitial = 2,
    genNumber = 2, genInterval = 30min and no caps, the balance with an
    empty history is 2 at contestStart and 4 at contestStart + 31min, one
    recorded spend leaves 1 and 3, and every spend recorded at one of those
    two instants lowers the balance there by exactly 1. *)
Theorem finite_availableTokens (p : TokenPolicy) (h : TokenUsageHistory)
    (cs now : datetime) :
  mode p = Finite -> 0 < genInterval p ->
  (exists k,
     0 <= k
     /\ (now < cs -> k = 0)
     /\ (cs <= now ->
         k * genInterval p <= now - cs < (k + 1) * genInterval p)
     /\ (forall cap, genMax p = Some cap ->
         grants p k = Z.min (genInitial p + k * genNumber p) cap)
     /\ (genMax p = None -> grants p k = genInitial p + k * genNumber p)
     /\ (maxTotalNumber p = None ->
         availableTokens p h cs now
         = Some (Tokens (Z.max 0 (grants p k - Z.of_nat (length h))))))
  /\ (genInitial p = 2 -> genNumber p = 2 -> genInterval p = minutes 30 ->
      genMax p = None -> maxTotalNumber p = None ->
      availableTokens p [] cs cs = Some (Tokens 2)
      /\ availableTokens p [] cs (cs + minutes 31) = Some (Tokens 4)
      /\ (forall spend,
            availableTokens p [spend] cs cs = Some (Tokens 1)
            /\ availableTokens p [spend] cs (cs + minutes 31)
               = Some (Tokens 3))
      /\ (forall at_time before after,
            at_time = cs \/ at_time = cs + minutes 31 ->
            recordSpend p before cs at_time = Some after ->
            exists n,
              availableTokens p before cs at_time = Some (Tokens n)
              /\ availableTokens p after cs at_time = Some (Tokens (n - 1)))).
Proof.
  intros Hmode Hpos. split.
  - destruct (elapsedIntervals_floor (genInterval p) cs now Hpos)
      as (k & Hk & Hk0 & Hbefore & Hfloor).
    exists k. repeat match goal with |- _ /\ _ => split end;
      try assumption.
    + intros cap Hcap. unfold grants. rewrite Hcap. reflexivity.
    + intros Hcap. unfold grants. rewrite Hcap. reflexivity.
    + intros Hcap. now apply availableTokens_no_lifetime_cap.
  - intros Hinit Hnum Hint Hmax Htotal.
    assert (Hbal : forall k hist at_time,
               elapsedIntervals (minutes 30) cs at_time = Some k ->
               availableTokens p hist cs at_time
               = Some (Tokens (Z.max 0 (2 + k * 2 - Z.of_nat (length hist))))).
    { intros k hist at_time Hk.
      rewrite (availableTokens_no_lifetime_cap p hist cs at_time k Hmode
                 Htotal) by (rewrite Hint; exact Hk).
      unfold grants. rewrite Hmax, Hinit, Hnum. reflexivity. }
    split; [|split; [|split]].
    + apply (Hbal 0 [] cs), elapsedIntervals_at_start.
    + apply (Hbal 1 [] (cs + minutes 31)),
        elapsedIntervals_after_31_minutes.
    + intros spend. split.
      * apply (Hbal 0 [spend] cs), elapsedIntervals_at_start.
      * apply (Hbal 1 [spend] (cs + minutes 31)),
          elapsedIntervals_after_31_minutes.
    + intros at_time before after _ Hrec.
      now apply recordSpend_decrements.
Qed.

Lemma finite_availableTokens_witness :
  availableTokens example_policy [] datetime_2025_1_1 datetime_2025_1_1
  = Some (Tokens 2)
  /\ availableTokens example_policy [] datetime_2025_1_1
       (datetime_2025_1_1 + minutes 31)
     = Some (Tokens 4)
  /\ exists n,
       availableTokens example_policy [] datetime_2025_1_1
         (datetime_2025_1_1 + minutes 31)
       = Some (Tokens n)
       /\ availableTokens example_policy [datetime_2025_1_1 + minutes 31]
            datetime_2025_1_1 (datetime_2025_1_1 + minutes 31)
          = Some (Tokens (n - 1)).
Proof.
  assert (Hpos : 0 < genInterval example_policy) by reflexivity.
  destruct (finite_availableTokens example_policy [] datetime_2025_1_1
              datetime_2025_1_1 eq_refl Hpos) as (_ & Hexample).
  destruct (Hexample eq_refl eq_refl eq_refl eq_refl eq_refl)
    as (Hstart & Hlater & _ & Hspend).
  split; [exact Hstart|]. split; [exact Hlater|].
  apply (Hspend (datetime_2025_1_1 + minutes 31) []
           [datetime_2025_1_1 + minutes 31]).
  - right. reflexivity.
  - reflexivity.
Defined.

(** C6. For every policy with mode = Disabled, every history, every
    contestStart and every now, [availableTokens] is 0 and [canSpendNow] is
    not allowed with reason Disabled. *)
Theorem disabled_policy_never_spends (p : TokenPolicy)
    (h : TokenUsageHistory) (cs now : datetime) :
  mode p = Disabled ->
  availableTokens p h cs now = Some (Tokens 0)
  /\ canSpendNow p h cs now
     = Some {| allowed := false; reason := ReasonDisabled |}.
Proof.
  intros Hmode. unfold canSpendNow, availableTokens. rewrite Hmode.
  split; reflexivity.
Qed.

Lemma disabled_policy_never_spends_witness :
  availableTokens (policy_of Contest_reversed) [datetime_2025_1_1]
    datetime_2025_1_1 datetime_2030_1_1
  = Some (Tokens 0)
  /\ canSpendNow (policy_of Contest_reversed) [datetime_2025_1_1]
       datetime_2025_1_1 datetime_2030_1_1
     = Some {| allowed := false; reason := ReasonDisabled |}.
Proof.
  apply disabled_policy_never_spends. reflexivity.
Defined.

(** ** Configuration errors and total queries *)

(** Under an accepted row both token queries return a result. *)
Lemma token_queries_defined (c : Contest) (h : TokenUsageHistory)
    (cs now : datetime) :
  accepted c = true ->
  (exists n, availableTokens (policy_of c) h cs now = Some n)
  /\ (exists v, canSpendNow (policy_of c) h cs now = Some v).
Proof.
  intros Hacc. apply accepted_inv in Hacc.
  destruct Hacc as (_ & _ & _ & _ & Hpos & _).
  assert (Hav : exists n, availableTokens (policy_of c) h cs now = Some n).
  { destruct (token_mode c) eqn:Hmode.
    - eexists. unfold availableTokens, policy_of. cbn. rewrite Hmode.
      reflexivity.
    - destruct (availableTokens_finite (policy_of c) h cs now)
        as (n & Hn & _).
      + unfold policy_of. cbn. rewrite Hmode. reflexivity.
      + exact Hpos.
      + eexists. exact Hn.
    - eexists. unfold availableTokens, policy_of. cbn. rewrite Hmode.
      reflexivity. }
  split; [exact Hav|].
  destruct Hav as (n & Hn). unfold canSpendNow. rewrite Hn.
  destruct (mode (policy_of c)); cbn;
    try (eexists; reflexivity);
    destruct n as [[|tokens|tokens]|];
    destruct (lastSpendTimestamp h) as [lastSpend|];
    try destruct (_ <? _); eexists; reflexivity.
Qed.

(** C7. A row that violates a declared invariant (stop before start, a
    non-positive token_gen_interval, a negative token_gen_max or
    token_max_number, a negative token_min_interval) is refused when it is
    stored; and on every accepted row the three queries are total: [phase]
    returns one of the five phases, and [availableTokens] and [canSpendNow]
    return a result for every history, contest start and instant. *)
Theorem configuration_checked_at_construction (c : Contest) :
  (stop c < start c
   \/ token_gen_interval c <= 0
   \/ (exists cap, token_gen_max c = Some cap /\ cap < 0)
   \/ (exists cap, token_max_number c = Some cap /\ cap < 0)
   \/ token_min_interval c < 0 ->
   accepted c = false)
  /\ (accepted c = true ->
      forall (h : TokenUsageHistory) (cs now timestamp : datetime),
        (exists p, phase c timestamp = phase_code p)
        /\ (exists n, availableTokens (policy_of c) h cs now = Some n)
        /\ (exists v, canSpendNow (policy_of c) h cs now = Some v)).
Proof.
  split.
  - intros Hbad. destruct (accepted c) eqn:Hacc; [|reflexivity].
    apply accepted_inv in Hacc.
    destruct Hacc as (Hss & Hmin & _ & _ & Hint & Hgen & Htotal).
    destruct Hbad as [Hb | [Hb | [(cap & Hcap & Hb) | [(cap & Hcap & Hb) | Hb]]]];
      try lia.
    + apply Hgen in Hcap. lia.
    + apply Htotal in Hcap. lia.
  - intros Hacc h cs now timestamp. split.
    + exists (phase_contract c timestamp). apply phase_refines_contract.
    + now apply token_queries_defined.
Qed.

Lemma configuration_checked_at_construction_witness :
  accepted Contest_reversed = false
  /\ accepted Contest_with_analysis = true
  /\ (exists n,
        availableTokens (policy_of Contest_with_analysis) []
          (start Contest_with_analysis) (stop Contest_with_analysis)
        = Some n)
  /\ (exists v,
        canSpendNow (policy_of Contest_with_analysis) []
          (start Contest_with_analysis) (stop Contest_with_analysis)
        = Some v).
Proof.
  split.
  - apply (proj1 (configuration_checked_at_construction Contest_reversed)).
    left. concrete.
  - split; [reflexivity|].
    apply (proj2 (configuration_checked_at_construction
                    Contest_with_analysis) eq_refl []
             (start Contest_with_analysis) (stop Contest_with_analysis)
             (start Contest_with_analysis)).
Defined.

(** * Further properties of [cms/db/contest.py] *)

(** ** [Contest.phase] on arbitrary rows *)

(** The returned code never decreases as the timestamp grows, whatever the
    row. *)
Lemma phase_nondecreasing (s : Contest) (t1 t2 : datetime) :
  t1 <= t2 -> phase s t1 <= phase s t2.
Proof.
  intros Hle. unfold phase.
  destruct (analysis_enabled s); split_tests; lia.
Qed.

(** X1. On every row, also one whose schedule is out of order, the code
    returned by [phase] does not decrease when the timestamp grows. *)
Theorem phase_monotone_on_any_row (s : Contest) (t1 t2 : datetime) :
  t1 <= t2 -> phase s t1 <= phase s t2.
Proof.
  intros Hle. unfold phase.
  destruct (Z.ltb_spec t1 (start s)), (Z.ltb_spec t2 (start s));
    try lia; try reflexivity.
  - destruct (Z.leb_spec t2 (stop s)); [lia|].
    destruct (analysis_enabled s); split_tests; lia.
  - destruct (Z.leb_spec t1 (stop s)), (Z.leb_spec t2 (stop s));
      try lia; destruct (analysis_enabled s); split_tests; lia.
Qed.

Lemma phase_monotone_on_any_row_witness :
  phase Contest_reversed (stop Contest_reversed)
  <= phase Contest_reversed (start Contest_reversed).
Proof.
  apply phase_monotone_on_any_row. concrete.
Defined.

(** X2. On every row each phase is one contiguous stretch of time: if two
    instants are in the same phase, so is every instant between them. *)
Theorem phase_stretch_contiguous (s : Contest) (t1 t2 t3 : datetime) :
  t1 <= t2 -> t2 <= t3 -> phase s t1 = phase s t3 ->
  phase s t2 = phase s t1.
Proof.
  intros H12 H23 Hsame.
  pose proof (phase_nondecreasing s t1 t2 H12).
  pose proof (phase_nondecreasing s t2 t3 H23).
  lia.
Qed.

Lemma phase_stretch_contiguous_witness :
  phase Contest_with_analysis (datetime_2025_1_1 + hours 2)
  = phase Contest_with_analysis (start Contest_with_analysis).
Proof.
  apply (phase_stretch_contiguous Contest_with_analysis
           (start Contest_with_analysis) (datetime_2025_1_1 + hours 2)
           (stop Contest_with_analysis)).
  - concrete.
  - concrete.
  - reflexivity.
Defined.

(** X3. On every row the phase can change from one microsecond to the next
    only at a configured instant: on reaching start, on leaving stop, and,
    with analysis enabled, on reaching analysis_start or leaving
    analysis_stop. *)
Theorem phase_changes_only_at_boundaries (s : Contest) (t : datetime) :
  phase s t <> phase s (t + 1) ->
  t + 1 = start s \/ t = stop s
  \/ (analysis_enabled s = true
      /\ (t + 1 = analysis_start s \/ t = analysis_stop s)).
Proof.
  unfold phase. destruct (analysis_enabled s); split_tests; intros Hchange;
    try (exfalso; apply Hchange; reflexivity);
    first [ left; lia
          | right; left; lia
          | right; right; split; [reflexivity | lia] ].
Qed.

Lemma phase_changes_only_at_boundaries_witness :
  stop Contest_with_analysis + 1 = start Contest_with_analysis
  \/ stop Contest_with_analysis = stop Contest_with_analysis
  \/ (analysis_enabled Contest_with_analysis = true
      /\ (stop Contest_with_analysis + 1
          = analysis_start Contest_with_analysis
          \/ stop Contest_with_analysis
             = analysis_stop Contest_with_analysis)).
Proof.
  apply (phase_changes_only_at_boundaries Contest_with_analysis
           (stop Contest_with_analysis)).
  vm_compute. intros Hsame. discriminate Hsame.
Defined.


(** X5. Which analysis phases a row can ever show: [phase] returns 1 at
    some instant iff analysis is enabled and analysis_start lies more than
    one microsecond after stop and after start; it returns 2 at some instant
    iff analysis is enabled and analysis_stop is not before analysis_start,
    not before start, and after stop. *)
Theorem phase_analysis_reachable (s : Contest) :
  ((exists t, phase s t = 1) <->
   analysis_enabled s = true
   /\ start s < analysis_start s /\ stop s + 1 < analysis_start s)
  /\ ((exists t, phase s t = 2) <->
      analysis_enabled s = true
      /\ analysis_start s <= analysis_stop s
      /\ start s <= analysis_stop s /\ stop s < analysis_stop s).
Proof.
  split; split.
  - intros (t & Ht). revert Ht. unfold phase.
    destruct (analysis_enabled s); split_tests; intros Ht;
      try discriminate Ht; split; try reflexivity; lia.
  - intros (Hon & Hstart & Hstop).
    exists (Z.max (start s) (stop s + 1)). unfold phase. rewrite Hon.
    split_tests; try reflexivity; lia.
  - intros (t & Ht). revert Ht. unfold phase.
    destruct (analysis_enabled s); split_tests; intros Ht;
      try discriminate Ht; split; try reflexivity; lia.
  - intros (Hon & Hwin & Hstart & Hstop).
    exists (analysis_stop s). unfold phase. rewrite Hon.
    split_tests; try reflexivity; lia.
Qed.

(** X6. Neither [phase] nor the CHECK constraints depend on where the
    schedule sits on the time axis: moving start, stop, analysis_start and
    analysis_stop by the same amount moves the phases with them and leaves
    the row accepted or refused as before. *)
Theorem schedule_shift_invariant (delta : timedelta) (c : Contest)
    (t : datetime) :
  phase (shift_schedule delta c) (t + delta) = phase c t
  /\ accepted (shift_schedule delta c) = accepted c.
Proof.
  split.
  - unfold phase, shift_schedule. cbn.
    destruct (analysis_enabled c); split_tests; try reflexivity; lia.
  - unfold accepted, shift_schedule.
    cbn [app table_args column_checks forallb].
    cbn [start stop analysis_start analysis_stop token_gen_initial
         token_gen_max token_max_number token_min_interval token_gen_number
         token_gen_interval per_user_time max_submission_number
         max_user_test_number min_submission_interval min_user_test_interval
         score_precision].
    unfold SQL.le, SQL.lit, SQL.cmp, SQL.passes.
    replace (start c + delta <=? stop c + delta) with (start c <=? stop c)
      by (split_tests; try reflexivity; lia).
    replace (stop c + delta <=? analysis_start c + delta)
      with (stop c <=? analysis_start c)
      by (split_tests; try reflexivity; lia).
    replace (analysis_start c + delta <=? analysis_stop c + delta)
      with (analysis_start c <=? analysis_stop c)
      by (split_tests; try reflexivity; lia).
    reflexivity.
Qed.

(** ** The CHECK constraints, read as conditions on the columns *)

Lemma passes_gt (column : option Z) (bound : Z) :
  SQL.passes (SQL.gt column (SQL.lit bound)) = true
  <-> when_set column (fun v => bound < v).
Proof.
  destruct column as [v|]; cbn; [|tauto].
  destruct (Z.ltb_spec bound v); split; intros Hp;
    try reflexivity; try discriminate Hp; lia.
Qed.

Lemma passes_ge (column : option Z) (bound : Z) :
  SQL.passes (SQL.ge column (SQL.lit bound)) = true
  <-> when_set column (fun v => bound <= v).
Proof.
  destruct column as [v|]; cbn; [|tauto].
  destruct (Z.leb_spec bound v); split; intros Hp;
    try reflexivity; try discriminate Hp; lia.
Qed.

Lemma passes_le (low : Z) (column : option Z) :
  SQL.passes (SQL.le (SQL.lit low) column) = true
  <-> when_set column (fun v => low <= v).
Proof.
  destruct column as [v|]; cbn; [|tauto].
  destruct (Z.leb_spec low v); split; intros Hp;
    try reflexivity; try discriminate Hp; lia.
Qed.

(** Exactly which rows the database stores. *)
Lemma accepted_iff (c : Contest) :
  accepted c = true <->
  (start c <= stop c /\ stop c <= analysis_start c
   /\ analysis_start c <= analysis_stop c
   /\ when_set (token_gen_max c) (fun cap => token_gen_initial c <= cap))
  /\ when_set (token_max_number c) (fun cap => 0 < cap)
  /\ 0 <= token_min_interval c
  /\ 0 <= token_gen_initial c
  /\ 0 <= token_gen_number c
  /\ 0 < token_gen_interval c
  /\ when_set (token_gen_max c) (fun cap => 0 < cap)
  /\ when_set (per_user_time c) (fun d => 0 <= d)
  /\ when_set (max_submission_number c) (fun n => 0 < n)
  /\ when_set (max_user_test_number c) (fun n => 0 < n)
  /\ when_set (min_submission_interval c) (fun d => seconds 60 < d)
  /\ when_set (min_user_test_interval c) (fun d => 0 < d)
  /\ 0 <= score_precision c.
Proof.
  unfold accepted. cbn [app table_args column_checks forallb].
  rewrite !andb_true_iff.
  rewrite !passes_gt, !passes_ge, !passes_le.
  change (seconds 0) with 0. unfold SQL.lit. cbn [when_set].
  intuition reflexivity.
Qed.


(** X8. A contest created with only its start and stop given, every other
    column at its default, is stored iff start <= stop and stop is not
    later than 2030-01-01 00:00, the default analysis_start: the check
    stop <= analysis_start applies although analysis is disabled by
    default. *)
Theorem Contest_scheduled_accepted (s e : datetime) :
  accepted (Contest_scheduled s e) = true
  <-> s <= e /\ e <= datetime_2030_1_1.
Proof.
  rewrite accepted_iff. unfold Contest_scheduled. cbn.
  unfold minutes, seconds. intuition lia.
Qed.

(** X9. Switching a feature off does not relax the checks on its columns:
    a row with analysis disabled is still refused when analysis_start is
    before stop or analysis_stop is before analysis_start, and a row with
    tokens disabled is still refused when token_gen_interval is not
    positive, token_gen_initial or token_gen_number is negative, or
    token_gen_max is below token_gen_initial. *)
Theorem checks_ignore_switches (c : Contest) :
  (analysis_enabled c = false ->
   analysis_start c < stop c \/ analysis_stop c < analysis_start c ->
   accepted c = false)
  /\ (token_mode c = TOKEN_MODE_DISABLED ->
      token_gen_interval c <= 0 \/ token_gen_initial c < 0
      \/ token_gen_number c < 0
      \/ (exists cap, token_gen_max c = Some cap
                      /\ cap < token_gen_initial c) ->
      accepted c = false).
Proof.
  split; intros _ Hbad; destruct (accepted c) eqn:Hacc;
    try reflexivity; exfalso; apply accepted_iff in Hacc;
    destruct Hacc as ((Hss & Hsa & Haa & Hcap) & _ & _ & Hinit & Hnum
                      & Hint & _).
  - lia.
  - destruct Hbad as [Hb | [Hb | [Hb | (cap & Hset & Hb)]]]; try lia.
    rewrite Hset in Hcap. cbn in Hcap. lia.
Qed.

Lemma checks_ignore_switches_witness :
  accepted (Contest_scheduled datetime_2030_1_1 (datetime_2030_1_1 + 1))
  = false.
Proof.
  apply (proj1 (checks_ignore_switches
                  (Contest_scheduled datetime_2030_1_1
                     (datetime_2030_1_1 + 1)))).
  - reflexivity.
  - left. concrete.
Defined.

(** ** Stored rows and their phases *)

(** X10. Every stored row goes through the contest in order: the instant
    before start is before the contest, start and stop are both in the
    active contest, and the instant after analysis_stop is past everything;
    with analysis disabled the instant after stop is already in the final
    phase, and with analysis enabled and analysis_start after stop both
    analysis_start and analysis_stop are in the analysis phase. *)
Theorem accepted_phase_landmarks (c : Contest) :
  accepted c = true ->
  phase c (start c - 1) = -1
  /\ phase c (start c) = 0
  /\ phase c (stop c) = 0
  /\ phase c (analysis_stop c + 1) = 3
  /\ (analysis_enabled c = false -> phase c (stop c + 1) = 3)
  /\ (analysis_enabled c = true -> stop c < analysis_start c ->
      phase c (analysis_start c) = 2 /\ phase c (analysis_stop c) = 2).
Proof.
  intros Hacc. apply accepted_ordering_invariant in Hacc.
  destruct Hacc as (Hss & Hsa & Haa). unfold phase.
  repeat match goal with |- _ /\ _ => split end;
    try (intros Hon; rewrite Hon); try intros Hgap;
    try split;
    destruct (analysis_enabled c); split_tests;
    try reflexivity; try discriminate; lia.
Qed.

Lemma accepted_phase_landmarks_witness :
  phase Contest_with_analysis (analysis_start Contest_with_analysis) = 2
  /\ phase Contest_with_analysis (analysis_stop Contest_with_analysis) = 2.
Proof.
  apply (accepted_phase_landmarks Contest_with_analysis).
  - reflexivity.
  - reflexivity.
  - concrete.
Defined.
